(** * A CRUD backend for "test projects": HTTP routing and resource access

    Shallow embedding of [src/main.go]: the CORS middleware, the route table
    registered on the [http.ServeMux], and the hand-written router
    [apiTestHandler] that dispatches on path and method to the operations of
    the test-project controller. *)

From Stdlib Require Import ZArith Ascii String List Bool Lia.
From stdpp Require Import base option gmap strings.

Local Open Scope string_scope.
Local Open Scope Z_scope.

(** ** Go library functions used by the router *)

(** [strings.HasPrefix] and [strings.TrimPrefix], on byte strings. *)
Module Strings.

(** [len(s) >= len(prefix) && s[:len(prefix)] == prefix] *)
Definition HasPrefix (s prefix : string) : bool :=
  (String.length prefix <=? String.length s)%nat
  && String.eqb (substring 0 (String.length prefix) s) prefix.

(** [if HasPrefix(s, prefix) { return s[len(prefix):] }; return s] *)
Definition TrimPrefix (s prefix : string) : string :=
  if HasPrefix s prefix
  then substring (String.length prefix)
                 (String.length s - String.length prefix) s
  else s.

End Strings.

(** [strconv.Atoi] for a 64-bit [int].  The router only tests whether the
    returned error is nil, so the result is an [option]: [None] stands for a
    non-nil [*NumError] (either [ErrSyntax] or [ErrRange]). *)
Module Strconv.

Definition IntSize : Z := 64.
Definition MaxInt : Z := 2 ^ (IntSize - 1) - 1.
Definition MinInt : Z := - 2 ^ (IntSize - 1).

(** [ch -= '0'; if ch > 9 { syntax error }] *)
Definition digit (c : ascii) : option Z :=
  let n := Z.of_N (N_of_ascii c) in
  if (48 <=? n) && (n <=? 57) then Some (n - 48) else None.

(** [n = n*10 + int(ch)] over the characters after the sign. *)
Fixpoint digits (n : Z) (s : string) : option Z :=
  match s with
  | EmptyString => Some n
  | String c s' =>
      match digit c with
      | Some d => digits (n * 10 + d) s'
      | None => None
      end
  end.

Definition Atoi (s : string) : option Z :=
  match s with
  | EmptyString => None
  | String c rest =>
      let neg := Ascii.eqb c "-" in
      let body := if neg || Ascii.eqb c "+" then rest else s in
      match body with
      | EmptyString => None
      | _ =>
          match digits 0 body with
          | None => None
          | Some n =>
              let v := if neg then - n else n in
              if (MinInt <=? v) && (v <=? MaxInt) then Some v else None
          end
      end
  end.

End Strconv.

(** [path.Clean], as [net/http] uses it to canonicalise request paths.
    The output buffer [out] is kept in reverse (its head is the byte written
    last), so [length out] is the write index [out.w]. *)
Module GoPath.

Definition is_slash (c : ascii) : bool := Ascii.eqb c "/".
Definition is_dot (c : ascii) : bool := Ascii.eqb c ".".

(** At the end of the path or in front of a slash:
    [r == n || path[r] == '/']. *)
Definition at_boundary (p : string) : bool :=
  match p with
  | EmptyString => true
  | String c _ => is_slash c
  end.

(** [out.w--; for out.w > dotdot && out.index(out.w) != '/' { out.w-- }] *)
Fixpoint backtrack (dotdot : nat) (out : list ascii) : list ascii :=
  match out with
  | nil => nil
  | c :: out' =>
      if (dotdot <? length out')%nat && negb (is_slash c)
      then backtrack dotdot out'
      else out'
  end.

(** The loop [for r < n] over the unread part [p] of the path.  While
    [copying], the inner loop [for ; r < n && path[r] != '/'; r++] is
    appending the bytes of a real path element. *)
Fixpoint scan (rooted copying : bool) (dotdot : nat) (out : list ascii)
    (p : string) : list ascii :=
  match p with
  | EmptyString => out
  | String c p' =>
      if is_slash c then
        (* end of the element being copied, or an empty path element *)
        scan rooted false dotdot out p'
      else if copying then
        scan rooted true dotdot (c :: out) p'
      else if is_dot c && at_boundary p' then
        (* . element *)
        scan rooted false dotdot out p'
      else
        match p' with
        | String c' p'' =>
            if is_dot c && is_dot c' && at_boundary p'' then
              (* .. element: remove to last / *)
              if (dotdot <? length out)%nat then
                scan rooted false dotdot (backtrack dotdot out) p''
              else if negb rooted then
                let out1 := if (0 <? length out)%nat then "/"%char :: out else out in
                let out2 := "."%char :: "."%char :: out1 in
                scan rooted false (length out2) out2 p''
              else scan rooted false dotdot out p''
            else
              (* real path element: add slash if needed, copy element *)
              let out1 :=
                if rooted && negb (length out =? 1)%nat
                   || negb rooted && negb (length out =? 0)%nat
                then "/"%char :: out else out in
              scan rooted true dotdot (c :: out1) p'
        | EmptyString =>
            let out1 :=
              if rooted && negb (length out =? 1)%nat
                 || negb rooted && negb (length out =? 0)%nat
              then "/"%char :: out else out in
            scan rooted true dotdot (c :: out1) p'
        end
  end.

Definition Clean (path : string) : string :=
  match path with
  | EmptyString => "."
  | String c rest =>
      let rooted := is_slash c in
      let out :=
        if rooted then scan true false 1 ("/"%char :: nil) rest
        else scan false false 0 nil path in
      match out with
      | nil => "."
      | _ => string_of_list_ascii (rev out)
      end
  end.

End GoPath.

(** ** Requests and what a handler does with them *)

(** The JSON documents of the API, as the schemas of [/swagger.json] name
    them.  In a request body the [Name] field may be absent from the document;
    in a stored record [Name] is the value of a database column, [None] being
    SQL NULL. *)
Module TestProjectsInput.
Record t := { Name : option string }.
End TestProjectsInput.

Module TestProjects.
Record t := { Id : Z; Name : option string }.
End TestProjects.

(** The part of an [*http.Request] the program looks at: [r.Method],
    [r.URL.Path] and the decoded body. *)
Record Request := {
  Method : string;
  Path : string;
  Body : TestProjectsInput.t
}.

(** The informational pages served by the closures registered in [main]. *)
Inductive Page := RootInfo | Health | SwaggerUI | SwaggerJSON.

(** What a handler does with a request: it either hands the request to one
    operation of the controller, or answers by itself. *)
Inductive Outcome :=
| CallGetAll
| CallCreate
| CallGetById (id : Z)
| CallUpdate (id : Z)
| CallDelete (id : Z)
| HttpError (msg : string) (code : Z)   (* http.Error(w, msg, code) *)
| HttpNotFound                          (* http.NotFound(w, r) *)
| WriteHeader (code : Z)                (* w.WriteHeader(code); return *)
| Redirect (url : string) (code : Z)    (* http.RedirectHandler(url, code) *)
| ServePage (p : Page).                 (* fmt.Fprintf(w, ...) of a page *)

Definition StatusOK : Z := 200.
Definition StatusCreated : Z := 201.
Definition StatusMovedPermanently : Z := 301.
Definition StatusBadRequest : Z := 400.
Definition StatusNotFound : Z := 404.
Definition StatusMethodNotAllowed : Z := 405.

(** Whether an outcome invokes an operation of the controller. *)
Definition invokes_controller (o : Outcome) : bool :=
  match o with
  | CallGetAll | CallCreate | CallGetById _ | CallUpdate _ | CallDelete _ => true
  | _ => false
  end.

(** ** [http.ServeMux]

    The dispatch of Go's request multiplexer for host-less patterns without
    wildcards: the request path is canonicalised (a request whose path is not
    canonical is redirected), a pattern that does not end in a slash matches
    one path exactly, and a pattern that ends in a slash matches every path it
    is a prefix of, the longest such pattern winning. *)
Module NetHttp.

Fixpoint lastByte (s : string) : option ascii :=
  match s with
  | EmptyString => None
  | String c EmptyString => Some c
  | String _ s' => lastByte s'
  end.

(** [p[len(p)-1] == '/'] *)
Definition endsInSlash (s : string) : bool :=
  match lastByte s with
  | Some c => GoPath.is_slash c
  | None => false
  end.

Definition cleanPath (p : string) : string :=
  match p with
  | EmptyString => "/"
  | String c _ =>
      let p := if GoPath.is_slash c then p else String "/" p in
      let np := GoPath.Clean p in
      (* path.Clean removes the trailing slash except for the root;
         put the trailing slash back if necessary *)
      if endsInSlash p && negb (String.eqb np "/") then
        if (String.length p =? String.length np + 1)%nat
           && Strings.HasPrefix p np
        then p
        else String.append np "/"
      else np
  end.

Inductive Match (H : Type) :=
| Found (h : H)
| Moved (url : string)
| NoMatch.
Arguments Found {H} h.
Arguments Moved {H} url.
Arguments NoMatch {H}.

Section ServeMux.
Context {H : Type}.

(** The registrations [mux.HandleFunc(pattern, h)]. *)
Variable patterns : list (string * H).

(** [mux.m[path]] *)
Definition exact (path : string) : option H :=
  snd <$> List.find (fun e => String.eqb (fst e) path) patterns.

(** The first hit in [mux.es], the patterns that end in a slash sorted
    from longest to shortest. *)
Definition longestPrefix (path : string) : option (string * H) :=
  fold_left
    (fun best e =>
       if endsInSlash (fst e) && Strings.HasPrefix path (fst e)
          && match best with
             | Some b => (String.length (fst b) <? String.length (fst e))%nat
             | None => true
             end
       then Some e else best)
    patterns None.

Definition match_ (path : string) : option H :=
  match exact path with
  | Some h => Some h
  | None => snd <$> longestPrefix path
  end.

(** [/tree] is redirected to [/tree/] when only the latter is
    registered. *)
Definition shouldRedirect (path : string) : bool :=
  match exact path with
  | Some _ => false
  | None =>
      match path with
      | EmptyString => false
      | _ =>
          match exact (String.append path "/") with
          | Some _ => negb (endsInSlash path)
          | None => false
          end
      end
  end.

Definition handler (path : string) : Match H :=
  match match_ path with
  | Some h => Found h
  | None => NoMatch
  end.

(** [mux.Handler(r)]; CONNECT requests are not canonicalised. *)
Definition Handler (r : Request) : Match H :=
  if String.eqb (Method r) "CONNECT" then
    if shouldRedirect (Path r) then Moved (String.append (Path r) "/")
    else handler (Path r)
  else
    let path := cleanPath (Path r) in
    if shouldRedirect path then Moved (String.append path "/")
    else if negb (String.eqb path (Path r)) then Moved path
    else handler (Path r).

End ServeMux.

End NetHttp.

(** ** [main]: the middleware, the router and the route table *)

Definition Header := list (string * string).

Definition corsHeaders : Header :=
  ("Access-Control-Allow-Origin", "*")
  :: ("Access-Control-Allow-Methods", "GET, POST, PUT, DELETE, OPTIONS")
  :: ("Access-Control-Allow-Headers", "Content-Type")
  :: nil.

(** [corsMiddleware(next)]: the three headers are set on every response; an
    OPTIONS request is answered at once, any other goes to [next]. *)
Definition corsMiddleware (next : Request -> Outcome) (r : Request)
    : Header * Outcome :=
  (corsHeaders,
   if String.eqb (Method r) "OPTIONS" then WriteHeader StatusOK
   else next r).

(** The router [apiTestHandler]. *)
Definition apiTestHandler (r : Request) : Outcome :=
  let path := Path r in
  if String.eqb path "/api/test" || String.eqb path "/api/test/" then
    if String.eqb (Method r) "GET" then CallGetAll
    else if String.eqb (Method r) "POST" then CallCreate
    else HttpError "Method not allowed" StatusMethodNotAllowed
  else if Strings.HasPrefix path "/api/test/" then
    let idStr := Strings.TrimPrefix path "/api/test/" in
    if String.eqb idStr "" then
      if String.eqb (Method r) "GET" then CallGetAll
      else if String.eqb (Method r) "POST" then CallCreate
      else HttpError "Method not allowed" StatusMethodNotAllowed
    else
      match Strconv.Atoi idStr with
      | None => HttpError "Invalid ID" StatusBadRequest
      | Some id =>
          if String.eqb (Method r) "GET" then CallGetById id
          else if String.eqb (Method r) "PUT" then CallUpdate id
          else if String.eqb (Method r) "DELETE" then CallDelete id
          else HttpError "Method not allowed" StatusMethodNotAllowed
      end
  else HttpNotFound.

(** The handlers registered on the mux, in the order of [main]. *)
Inductive Registered :=
| RootHandler | HealthHandler | SwaggerHandler | SwaggerJSONHandler
| ApiTestHandler.

Definition patterns : list (string * Registered) :=
  ("/", RootHandler)
  :: ("/health", HealthHandler)
  :: ("/swagger", SwaggerHandler)
  :: ("/swagger.json", SwaggerJSONHandler)
  :: ("/api/test", ApiTestHandler)
  :: ("/api/test/", ApiTestHandler)
  :: nil.

Definition serveRegistered (h : Registered) (r : Request) : Outcome :=
  match h with
  | RootHandler =>
      if negb (String.eqb (Path r) "/") then HttpNotFound
      else ServePage RootInfo
  | HealthHandler => ServePage Health
  | SwaggerHandler => ServePage SwaggerUI
  | SwaggerJSONHandler => ServePage SwaggerJSON
  | ApiTestHandler => apiTestHandler r
  end.

(** [mux.ServeHTTP] *)
Definition mux (r : Request) : Outcome :=
  match NetHttp.Handler patterns r with
  | NetHttp.Found h => serveRegistered h r
  | NetHttp.Moved url => Redirect url StatusMovedPermanently
  | NetHttp.NoMatch => HttpNotFound
  end.

(** [handler := corsMiddleware(mux)], what [http.ListenAndServe] serves. *)
Definition handler : Request -> Header * Outcome := corsMiddleware mux.

(** ** Responses *)

Inductive ResponseBody :=
| NoBody
| Text (msg : string)                   (* the line written by http.Error *)
| MovedTo (url : string)                (* the Location of a redirect *)
| JsonRecord (p : TestProjects.t)
| JsonList (l : list TestProjects.t)
| PageBody (p : Page).

(** What a handler writes: the status code and the body. *)
Definition Reply : Type := Z * ResponseBody.

(** A response: [ResponseHeader] holds the headers the middleware sets (a
    [Content-Type] added further down is not recorded). *)
Record Response := {
  StatusCode : Z;
  ResponseHeader : Header;
  Content : ResponseBody
}.

(** ** The controller *)

Module Controllers.

(** Modelled from the spec: the table behind the package
    [backend/Controllers], which is not among the sources.  Section 3: a
    record has an integer identifier (server-generated, unique) and a name;
    [rows] maps the identifier of every stored record to its name column and
    [next_id] is the generator of identifiers.  The database is taken to be
    reachable, so the 500 answers of section 7 do not occur. *)
Record Store := { rows : gmap Z (option string); next_id : Z }.

Definition empty : Store := {| rows := ∅; next_id := 1 |}.

Definition record (id : Z) (name : option string) : TestProjects.t :=
  {| TestProjects.Id := id; TestProjects.Name := name |}.

(** The name a request submits; a document without the field decodes to
    the empty string. *)
Definition submitted (inp : TestProjectsInput.t) : string :=
  default "" (TestProjectsInput.Name inp).

(** Modelled from the spec: [GetAll] of the missing controller, section
    4.2, list-all (returns all records). *)
Definition GetAll (db : Store) : Reply * Store :=
  ((StatusOK, JsonList ((fun e => record (fst e) (snd e)) <$> map_to_list (rows db))),
   db).

(** Modelled from the spec: [GetById] of the missing controller, section
    4.2, get-by-id (returns record or a not-found signal). *)
Definition GetById (db : Store) (id : Z) : Reply * Store :=
  match rows db !! id with
  | Some name => ((StatusOK, JsonRecord (record id name)), db)
  | None => ((StatusNotFound, Text "Project not found"), db)
  end.

(** Modelled from the spec: [Create] of the missing controller, section
    4.2, create (validates required name, inserts, returns generated
    identifier); an empty or missing name is answered 400 (section 7). *)
Definition Create (db : Store) (inp : TestProjectsInput.t) : Reply * Store :=
  if String.eqb (submitted inp) "" then
    ((StatusBadRequest, Text "Name is required"), db)
  else
    let id := next_id db in
    ((StatusCreated, JsonRecord (record id (Some (submitted inp)))),
     {| rows := <[id := Some (submitted inp)]> (rows db);
        next_id := id + 1 |}).

(** Modelled from the spec: [Update] of the missing controller, section
    4.2, update (writes if record exists, otherwise not-found). *)
Definition Update (db : Store) (id : Z) (inp : TestProjectsInput.t)
    : Reply * Store :=
  match rows db !! id with
  | Some _ =>
      ((StatusOK, JsonRecord (record id (Some (submitted inp)))),
       {| rows := <[id := Some (submitted inp)]> (rows db);
          next_id := next_id db |})
  | None => ((StatusNotFound, Text "Project not found"), db)
  end.

(** Modelled from the spec: [Delete] of the missing controller, section
    4.2, delete (removes if exists, otherwise not-found). *)
Definition Delete (db : Store) (id : Z) : Reply * Store :=
  match rows db !! id with
  | Some _ =>
      ((StatusOK, Text "Deleted successfully"),
       {| rows := delete id (rows db); next_id := next_id db |})
  | None => ((StatusNotFound, Text "Project not found"), db)
  end.

(** The five operations as requests to the controller. *)
Inductive Op :=
| OpGetAll
| OpGetById (id : Z)
| OpCreate (inp : TestProjectsInput.t)
| OpUpdate (id : Z) (inp : TestProjectsInput.t)
| OpDelete (id : Z).

Definition exec (op : Op) (db : Store) : Reply * Store :=
  match op with
  | OpGetAll => GetAll db
  | OpGetById id => GetById db id
  | OpCreate inp => Create db inp
  | OpUpdate id inp => Update db id inp
  | OpDelete id => Delete db id
  end.

(** A sequence of operations, one after the other. *)
Definition run (ops : list Op) (db : Store) : Store :=
  fold_left (fun d op => snd (exec op d)) ops db.

(** Section 3: every stored record has a non-null name. *)
Definition names_non_null (db : Store) : Prop :=
  ∀ id name, rows db !! id = Some name → name ≠ None.

(** The generator is ahead of every identifier in use. *)
Definition ids_generated (db : Store) : Prop :=
  ∀ id, is_Some (rows db !! id) → id < next_id db.

(** The states the server can be in: those a sequence of operations
    reaches from the empty table. *)
Inductive reachable : Store → Prop :=
| reachable_empty : reachable empty
| reachable_exec op db : reachable db → reachable (snd (exec op db)).

End Controllers.

(** ** Serving a request against the table *)

Definition perform (o : Outcome) (r : Request) (db : Controllers.Store)
    : Reply * Controllers.Store :=
  match o with
  | CallGetAll => Controllers.GetAll db
  | CallCreate => Controllers.Create db (Body r)
  | CallGetById id => Controllers.GetById db id
  | CallUpdate id => Controllers.Update db id (Body r)
  | CallDelete id => Controllers.Delete db id
  | HttpError msg code => ((code, Text msg), db)
  | HttpNotFound => ((StatusNotFound, Text "404 page not found"), db)
  | WriteHeader code => ((code, NoBody), db)
  | Redirect url code => ((code, MovedTo url), db)
  | ServePage p => ((StatusOK, PageBody p), db)
  end.

Definition serve (r : Request) (db : Controllers.Store)
    : Response * Controllers.Store :=
  let (hdr, o) := handler r in
  let (reply, db') := perform o r db in
  ({| StatusCode := fst reply; ResponseHeader := hdr; Content := snd reply |},
   db').

(** ** [main]: start-up *)

(** The environment variables [main] reads; [os.Getenv] gives the empty
    string for a variable that is not set. *)
Record Environ := { DATABASE_URL : string; PORT : string }.

(** How [main] ends: in [log.Fatal], or serving [handler] on an address. *)
Inductive Startup :=
| Fatal (msg : string)
| ListenAndServe (addr : string).

(** [main] up to the call of [http.ListenAndServe]; [openErr] and [pingErr]
    are the errors [sql.Open] and [db.Ping] return, [None] for nil. *)
Definition main (env : Environ) (openErr pingErr : option string) : Startup :=
  let databaseUrl := DATABASE_URL env in
  if String.eqb databaseUrl "" then
    Fatal "DATABASE_URL environment variable not set"
  else
    match openErr with
    | Some err => Fatal (String.append "Failed to connect to database: " err)
    | None =>
        match pingErr with
        | Some err => Fatal (String.append "Failed to ping database: " err)
        | None =>
            let port := PORT env in
            let port := if String.eqb port "" then "8080" else port in
            ListenAndServe (String.append "0.0.0.0:" port)
        end
    end.

(** ** Auxiliary definitions for the statements *)

(** The method switch of [apiTestHandler] once [strconv.Atoi] succeeded. *)
Definition dispatchItem (method : string) (id : Z) : Outcome :=
  if String.eqb method "GET" then CallGetById id
  else if String.eqb method "PUT" then CallUpdate id
  else if String.eqb method "DELETE" then CallDelete id
  else HttpError "Method not allowed" StatusMethodNotAllowed.

(** The method switch of [apiTestHandler] on the collection path. *)
Definition dispatchCollection (method : string) : Outcome :=
  if String.eqb method "GET" then CallGetAll
  else if String.eqb method "POST" then CallCreate
  else HttpError "Method not allowed" StatusMethodNotAllowed.

(** The path is [/api/test/{seg}] and the segment parses as [id]. *)
Definition item_path (r : Request) (id : Z) : Prop :=
  ∃ seg, Path r = String.append "/api/test/" seg ∧ Strconv.Atoi seg = Some id.

(** The path is the collection path, with or without the trailing slash. *)
Definition collection_path (r : Request) : Prop :=
  Path r = "/api/test" ∨ Path r = "/api/test/".

(** A request that carries no JSON document. *)
Definition bodyless (method path : string) : Request :=
  {| Method := method; Path := path;
     Body := {| TestProjectsInput.Name := None |} |}.

(** A path segment without slashes and dots, as every decimal numeral is. *)
Fixpoint plain (s : string) : bool :=
  match s with
  | EmptyString => true
  | String c s' => negb (GoPath.is_slash c) && negb (GoPath.is_dot c) && plain s'
  end.

(** * Properties *)

(** ** The model on concrete requests *)

Example Atoi_negative : Strconv.Atoi "-5" = Some (-5).
Proof. reflexivity. Qed.

Example Atoi_plus_leading_zeros : Strconv.Atoi "+007" = Some 7.
Proof. reflexivity. Qed.

Example Atoi_trailing_letter : Strconv.Atoi "12a" = None.
Proof. reflexivity. Qed.

Example Atoi_sign_only : Strconv.Atoi "-" = None.
Proof. reflexivity. Qed.

Example Atoi_max_int : Strconv.Atoi "9223372036854775807" = Some 9223372036854775807.
Proof. reflexivity. Qed.

Example Atoi_out_of_range : Strconv.Atoi "9223372036854775808" = None.
Proof. reflexivity. Qed.

Example Atoi_min_int : Strconv.Atoi "-9223372036854775808" = Some (-9223372036854775808).
Proof. reflexivity. Qed.

Example router_delete_negative :
  apiTestHandler (bodyless "DELETE" "/api/test/-5")
  = CallDelete (-5).
Proof. reflexivity. Qed.

Example Clean_dotdot_and_empty_elements : GoPath.Clean "/api/test/../x//y/./z/" = "/api/x/y/z".
Proof. reflexivity. Qed.
Example Clean_unrooted_dotdot : GoPath.Clean "a/../../b" = "../b".
Proof. reflexivity. Qed.
Example Clean_stops_at_root : GoPath.Clean "/../a/b/../../.." = "/".
Proof. reflexivity. Qed.
Example Clean_to_dot : GoPath.Clean "abc/def/../.." = ".".
Proof. reflexivity. Qed.
Example Clean_keeps_dotted_name : GoPath.Clean "/api/test/..5" = "/api/test/..5".
Proof. reflexivity. Qed.
Example Clean_leading_dotdot : GoPath.Clean "../../abc/." = "../../abc".
Proof. reflexivity. Qed.
Example Clean_trailing_slashes : GoPath.Clean "/api/test/.x/...//" = "/api/test/.x/...".
Proof. reflexivity. Qed.

Example mux_trailing_slash : mux (bodyless "GET" "/api/test/") = CallGetAll.
Proof. reflexivity. Qed.
Example mux_redirects_double_slash : mux (bodyless "GET" "/api/test//7") = Redirect "/api/test/7" 301.
Proof. reflexivity. Qed.
Example mux_health_slash_not_found : mux (bodyless "GET" "/health/") = HttpNotFound.
Proof. reflexivity. Qed.
Example mux_swagger_json : mux (bodyless "GET" "/swagger.json") = ServePage SwaggerJSON.
Proof. reflexivity. Qed.
Example mux_update : mux (bodyless "PUT" "/api/test/12") = CallUpdate 12.
Proof. reflexivity. Qed.
Example mux_redirects_dotdot : mux (bodyless "GET" "/api/test/a/../") = Redirect "/api/test/" 301.
Proof. reflexivity. Qed.
Example mux_other_prefix_not_found : mux (bodyless "GET" "/api/testx") = HttpNotFound.
Proof. reflexivity. Qed.
Example mux_root : mux (bodyless "GET" "/") = ServePage RootInfo.
Proof. reflexivity. Qed.

(** ** Strings *)

Lemma substring_0_length (s : string) : substring 0 (String.length s) s = s.
Proof. induction s as [|c s IH]; simpl; [reflexivity | now rewrite IH]. Qed.

Lemma substring_0_app (p x : string) :
  substring 0 (String.length p) (String.append p x) = p.
Proof.
  induction p as [|c p IH]; simpl.
  - now destruct x.
  - now rewrite IH.
Qed.

Lemma substring_skip_app (p x : string) (m : nat) :
  substring (String.length p) m (String.append p x) = substring 0 m x.
Proof. induction p as [|c p IH]; simpl; [reflexivity | exact IH]. Qed.

Lemma length_app (p x : string) :
  String.length (String.append p x) = (String.length p + String.length x)%nat.
Proof. induction p as [|c p IH]; simpl; [reflexivity | now rewrite IH]. Qed.

Lemma HasPrefix_app (p x : string) : Strings.HasPrefix (String.append p x) p = true.
Proof.
  unfold Strings.HasPrefix.
  rewrite substring_0_app, String.eqb_refl, length_app.
  rewrite andb_true_r. apply Nat.leb_le. lia.
Qed.

Lemma TrimPrefix_app (p x : string) : Strings.TrimPrefix (String.append p x) p = x.
Proof.
  unfold Strings.TrimPrefix. rewrite HasPrefix_app, substring_skip_app, length_app.
  replace (String.length p + String.length x - String.length p)%nat
    with (String.length x) by lia.
  apply substring_0_length.
Qed.

Lemma eqb_empty_false (s : string) : s ≠ "" → String.eqb s "" = false.
Proof. intros Hs. now apply String.eqb_neq. Qed.

(** ** The router on an identifier segment *)

Lemma apiTestHandler_segment (r : Request) (seg : string) :
  Path r = String.append "/api/test/" seg →
  seg ≠ "" →
  apiTestHandler r =
    match Strconv.Atoi seg with
    | None => HttpError "Invalid ID" StatusBadRequest
    | Some id => dispatchItem (Method r) id
    end.
Proof.
  intros Hp Hseg. unfold apiTestHandler, dispatchItem.
  rewrite Hp, HasPrefix_app, TrimPrefix_app, (eqb_empty_false seg Hseg).
  destruct seg as [|c s]; [congruence|].
  reflexivity.
Qed.

(** ** Canonical paths *)

Lemma digit_plain (c : ascii) (d : Z) :
  Strconv.digit c = Some d → GoPath.is_slash c = false ∧ GoPath.is_dot c = false.
Proof.
  destruct c as [[] [] [] [] [] [] [] []]; vm_compute; intros; (discriminate || (split; reflexivity)).
Qed.

Lemma digits_plain (s : string) : ∀ n m, Strconv.digits n s = Some m → plain s = true.
Proof.
  induction s as [|c s IH]; simpl; intros n m H; [reflexivity|].
  destruct (Strconv.digit c) as [d|] eqn:Hd; [|discriminate].
  destruct (digit_plain c d Hd) as [-> ->]. simpl. eauto.
Qed.

Lemma Atoi_plain (seg : string) (id : Z) :
  Strconv.Atoi seg = Some id → seg ≠ "" ∧ plain seg = true.
Proof.
  destruct seg as [|c s]; [discriminate|].
  intros H. split; [discriminate|].
  unfold Strconv.Atoi in H. cbv zeta in H.
  assert (Hbody : ∀ body, match body with
            | EmptyString => None
            | String _ _ =>
                match Strconv.digits 0 body with
                | Some n =>
                    let v := if Ascii.eqb c "-" then - n else n in
                    if (Strconv.MinInt <=? v) && (v <=? Strconv.MaxInt)
                    then Some v else None
                | None => None
                end
            end = Some id → plain body = true).
  { intros body Hb. destruct body as [|a b]; [discriminate|].
    destruct (Strconv.digits 0 (String a b)) eqn:Hd; [|discriminate].
    eapply digits_plain; eassumption. }
  destruct (Ascii.eqb c "-") eqn:Hm.
  - apply Ascii.eqb_eq in Hm. subst c. cbn [orb] in H.
    apply Hbody in H. exact H.
  - destruct (Ascii.eqb c "+") eqn:Hpl; cbn [orb] in H.
    + apply Ascii.eqb_eq in Hpl. subst c. apply Hbody in H. exact H.
    + apply (Hbody (String c s)). exact H.
Qed.

Lemma scan_copying_plain (rooted : bool) (dotdot : nat) (s : string) :
  plain s = true →
  ∀ out, GoPath.scan rooted true dotdot out s = (rev (list_ascii_of_string s) ++ out)%list.
Proof.
  induction s as [|c s IH]; intros Hs out; [reflexivity|].
  simpl in Hs. apply andb_true_iff in Hs as [Hc Hs].
  apply andb_true_iff in Hc as [Hsl _]. apply negb_true_iff in Hsl.
  simpl. rewrite Hsl, IH by assumption.
  now rewrite <- app_assoc.
Qed.

Lemma string_of_rev_app (s : string) (out : list ascii) :
  string_of_list_ascii (rev (rev (list_ascii_of_string s) ++ out)%list)
  = String.append (string_of_list_ascii (rev out)) s.
Proof.
  rewrite rev_app_distr, rev_involutive.
  induction (rev out) as [|c l IH]; simpl.
  - apply string_of_list_ascii_of_string.
  - now rewrite IH.
Qed.

Lemma Clean_api_test_segment (seg : string) :
  seg ≠ "" → plain seg = true →
  GoPath.Clean (String.append "/api/test/" seg) = String.append "/api/test/" seg.
Proof.
  intros Hne Hp. destruct seg as [|c s]; [congruence|].
  simpl in Hp. apply andb_true_iff in Hp as [Hc Hs].
  apply andb_true_iff in Hc as [Hsl Hdot].
  apply negb_true_iff in Hsl. apply negb_true_iff in Hdot.
  unfold GoPath.Clean. simpl. rewrite Hsl, Hdot. simpl.
  assert (Hscan : ∀ out,
    match s with
    | EmptyString => GoPath.scan true true 1 (c :: out) s
    | String _ _ => GoPath.scan true true 1 (c :: out) s
    end = (rev (list_ascii_of_string (String c s)) ++ out)%list).
  { intros out. destruct s; rewrite scan_copying_plain by assumption;
      simpl; rewrite <- ?app_assoc; reflexivity. }
  rewrite Hscan.
  destruct (rev (list_ascii_of_string (String c s)) ++ _)%list eqn:Hout.
  - apply app_eq_nil in Hout as [_ Hout]. discriminate.
  - rewrite <- Hout. rewrite string_of_rev_app. reflexivity.
Qed.

Lemma lastByte_app (pre s : string) :
  s ≠ "" → NetHttp.lastByte (String.append pre s) = NetHttp.lastByte s.
Proof.
  intros Hs. induction pre as [|c pre IH]; [reflexivity|].
  change (String.append (String c pre) s) with (String c (String.append pre s)).
  destruct (String.append pre s) as [|a t] eqn:Happ.
  - exfalso. destruct pre as [|c' pre'].
    + apply Hs. exact Happ.
    + discriminate Happ.
  - rewrite <- IH. reflexivity.
Qed.

Lemma lastByte_plain (s : string) :
  plain s = true → s ≠ "" →
  ∃ c, NetHttp.lastByte s = Some c ∧ GoPath.is_slash c = false.
Proof.
  induction s as [|c s IH]; intros Hp Hne; [congruence|].
  simpl in Hp. apply andb_true_iff in Hp as [Hc Hs].
  apply andb_true_iff in Hc as [Hsl _]. apply negb_true_iff in Hsl.
  destruct s as [|c' s'].
  - exists c. split; [reflexivity | assumption].
  - destruct IH as [d [Hd Hds]]; [assumption | discriminate |].
    exists d. split; [exact Hd | assumption].
Qed.

Lemma endsInSlash_plain (pre s : string) :
  plain s = true → s ≠ "" → NetHttp.endsInSlash (String.append pre s) = false.
Proof.
  intros Hp Hne. unfold NetHttp.endsInSlash. rewrite lastByte_app by assumption.
  destruct (lastByte_plain s Hp Hne) as [c [-> Hc]]. exact Hc.
Qed.

Lemma cleanPath_api_test_segment (seg : string) :
  seg ≠ "" → plain seg = true →
  NetHttp.cleanPath (String.append "/api/test/" seg) = String.append "/api/test/" seg.
Proof.
  intros Hne Hp. unfold NetHttp.cleanPath.
  change (String.append "/api/test/" seg)
    with (String "/" (String.append "api/test/" seg)) at 1.
  cbv beta iota zeta.
  change (GoPath.is_slash "/") with true. cbv iota.
  change (String "/" (String.append "api/test/" seg))
    with (String.append "/api/test/" seg).
  rewrite Clean_api_test_segment by assumption.
  now rewrite endsInSlash_plain by assumption.
Qed.

(** The mux hands every canonical path below [/api/test/] to the router. *)
Lemma mux_api_test_canonical (r : Request) (seg : string) :
  Path r = String.append "/api/test/" seg →
  seg ≠ "" →
  NetHttp.cleanPath (Path r) = Path r →
  mux r = apiTestHandler r.
Proof.
  intros Hpath Hne Hclean.
  assert (Hfound : NetHttp.Handler patterns r = NetHttp.Found ApiTestHandler).
  { unfold NetHttp.Handler. rewrite Hclean, String.eqb_refl. cbn [negb].
    rewrite Hpath.
    assert (Hno : NetHttp.shouldRedirect patterns (String.append "/api/test/" seg) = false).
    { destruct seg as [|c s]; [congruence|]. reflexivity. }
    assert (Hh : NetHttp.handler patterns (String.append "/api/test/" seg)
                 = NetHttp.Found ApiTestHandler).
    { destruct seg as [|c s]; [congruence|]. reflexivity. }
    rewrite Hno, Hh. now destruct (String.eqb (Method r) "CONNECT"). }
  unfold mux. rewrite Hfound. reflexivity.
Qed.

Lemma mux_api_test_segment (r : Request) (seg : string) :
  Path r = String.append "/api/test/" seg →
  seg ≠ "" → plain seg = true →
  mux r = apiTestHandler r.
Proof.
  intros Hpath Hne Hp. apply (mux_api_test_canonical r seg Hpath Hne).
  rewrite Hpath. now apply cleanPath_api_test_segment.
Qed.

(** The mux hands both spellings of the collection path to the router. *)
Lemma mux_collection (r : Request) :
  Path r = "/api/test" ∨ Path r = "/api/test/" →
  mux r = apiTestHandler r.
Proof.
  intros Hpath.
  assert (Hfound : NetHttp.Handler patterns r = NetHttp.Found ApiTestHandler).
  { unfold NetHttp.Handler.
    destruct Hpath as [-> | ->];
      now destruct (String.eqb (Method r) "CONNECT"). }
  unfold mux. rewrite Hfound. reflexivity.
Qed.

(** ** The router *)

Lemma eqb_false_of_ne (a b : string) : a ≠ b → String.eqb a b = false.
Proof. intros H. now apply String.eqb_neq. Qed.

Lemma apiTestHandler_collection (r : Request) :
  Path r = "/api/test" ∨ Path r = "/api/test/" →
  apiTestHandler r =
    if String.eqb (Method r) "GET" then CallGetAll
    else if String.eqb (Method r) "POST" then CallCreate
    else HttpError "Method not allowed" StatusMethodNotAllowed.
Proof. intros [H | H]; unfold apiTestHandler; rewrite H; reflexivity. Qed.

Lemma dispatchItem_not_bad_request (m : string) (id : Z) (msg : string) :
  dispatchItem m id ≠ HttpError msg StatusBadRequest.
Proof.
  unfold dispatchItem.
  destruct (String.eqb m "GET"); [discriminate|].
  destruct (String.eqb m "PUT"); [discriminate|].
  destruct (String.eqb m "DELETE"); discriminate.
Qed.

(** C6: a request whose path is [/api/test/{seg}] with a non-empty segment
    that [strconv.Atoi] does not parse is answered 400 ("Invalid ID") by the
    router, also behind the mux when the path is canonical; the outcome
    invokes no operation of the controller, so the table is left as it was. *)
Theorem non_integer_segment_bad_request (r : Request) (seg : string) :
  Path r = String.append "/api/test/" seg →
  seg ≠ "" →
  Strconv.Atoi seg = None →
  apiTestHandler r = HttpError "Invalid ID" StatusBadRequest
  ∧ invokes_controller (apiTestHandler r) = false
  ∧ (∀ db, perform (apiTestHandler r) r db = ((400, Text "Invalid ID"), db))
  ∧ (NetHttp.cleanPath (Path r) = Path r →
     mux r = HttpError "Invalid ID" StatusBadRequest).
Proof.
  intros Hpath Hne Hatoi.
  assert (Hrouter : apiTestHandler r = HttpError "Invalid ID" StatusBadRequest).
  { now rewrite (apiTestHandler_segment r seg Hpath Hne), Hatoi. }
  rewrite Hrouter. repeat split.
  intros Hclean. now rewrite (mux_api_test_canonical r seg Hpath Hne Hclean).
Qed.

Lemma non_integer_segment_bad_request_witness :
  apiTestHandler (bodyless "GET" "/api/test/12a")
  = HttpError "Invalid ID" StatusBadRequest
  ∧ mux (bodyless "GET" "/api/test/12a")
    = HttpError "Invalid ID" StatusBadRequest.
Proof.
  pose proof (non_integer_segment_bad_request
                (bodyless "GET" "/api/test/12a") "12a")
    as H.
  destruct H as [Hrouter [_ [_ Hmux]]];
    [reflexivity | discriminate | reflexivity |].
  split; [exact Hrouter | apply Hmux; reflexivity].
Defined.

(** C10: when the segment of [/api/test/{seg}] parses as an integer [id],
    zero and negative ones included, the mux passes the request to the router
    and the router does not answer 400: GET goes to get-by-id, PUT to update
    and DELETE to delete, each with [id]. *)
Theorem integer_segment_dispatch (r : Request) (seg : string) (id : Z) :
  Path r = String.append "/api/test/" seg →
  Strconv.Atoi seg = Some id →
  mux r = apiTestHandler r
  ∧ (∀ msg, apiTestHandler r ≠ HttpError msg StatusBadRequest)
  ∧ (Method r = "GET" → apiTestHandler r = CallGetById id)
  ∧ (Method r = "PUT" → apiTestHandler r = CallUpdate id)
  ∧ (Method r = "DELETE" → apiTestHandler r = CallDelete id).
Proof.
  intros Hpath Hatoi.
  destruct (Atoi_plain seg id Hatoi) as [Hne Hplain].
  split; [exact (mux_api_test_segment r seg Hpath Hne Hplain)|].
  rewrite (apiTestHandler_segment r seg Hpath Hne), Hatoi.
  split; [intros msg; apply dispatchItem_not_bad_request|].
  unfold dispatchItem. repeat split; intros ->; reflexivity.
Qed.

Lemma integer_segment_dispatch_witness :
  apiTestHandler (bodyless "DELETE" "/api/test/-5")
  = CallDelete (-5)
  ∧ apiTestHandler (bodyless "GET" "/api/test/0")
    = CallGetById 0.
Proof.
  split.
  - apply (integer_segment_dispatch
             (bodyless "DELETE" "/api/test/-5") "-5" (-5));
      reflexivity.
  - apply (integer_segment_dispatch
             (bodyless "GET" "/api/test/0") "0" 0);
      reflexivity.
Defined.

(** C8: for every method, a request to [/api/test/] is dispatched as the same
    request to [/api/test] is, by the router and by the mux in front of it:
    GET invokes list-all, POST invokes create, and any other method is
    answered 405. *)
Theorem trailing_slash_same_dispatch (r r' : Request) :
  Path r = "/api/test/" →
  Path r' = "/api/test" →
  Method r = Method r' →
  apiTestHandler r = apiTestHandler r'
  ∧ mux r = mux r'
  ∧ mux r = apiTestHandler r
  ∧ (Method r = "GET" → mux r = CallGetAll)
  ∧ (Method r = "POST" → mux r = CallCreate)
  ∧ (Method r ≠ "GET" → Method r ≠ "POST" →
     mux r = HttpError "Method not allowed" StatusMethodNotAllowed)
  ∧ (Body r = Body r' → ∀ db, serve r db = serve r' db).
Proof.
  intros Hr Hr' Hm.
  assert (Hmux : mux r = mux r').
  { rewrite (mux_collection r (or_intror Hr)), (mux_collection r' (or_introl Hr')).
    rewrite (apiTestHandler_collection r (or_intror Hr)).
    rewrite (apiTestHandler_collection r' (or_introl Hr')).
    now rewrite Hm. }
  split.
  { rewrite <- (mux_collection r (or_intror Hr)).
    now rewrite <- (mux_collection r' (or_introl Hr')). }
  split; [exact Hmux|].
  split; [exact (mux_collection r (or_intror Hr))|].
  rewrite (mux_collection r (or_intror Hr)).
  rewrite (apiTestHandler_collection r (or_intror Hr)).
  repeat split.
  - intros ->. reflexivity.
  - intros ->. reflexivity.
  - intros Hg Hp.
    now rewrite (eqb_false_of_ne _ _ Hg), (eqb_false_of_ne _ _ Hp).
  - intros Hbody db. unfold serve, handler, corsMiddleware.
    rewrite <- Hm, <- Hmux.
    destruct (String.eqb (Method r) "OPTIONS"); [reflexivity|].
    assert (Hperf : ∀ o, perform o r db = perform o r' db).
    { intros o. destruct o; simpl; now rewrite <- ?Hbody. }
    now rewrite Hperf.
Qed.

Lemma trailing_slash_same_dispatch_witness :
  mux (bodyless "PATCH" "/api/test/")
  = HttpError "Method not allowed" StatusMethodNotAllowed.
Proof.
  apply (trailing_slash_same_dispatch
           (bodyless "PATCH" "/api/test/")
           (bodyless "PATCH" "/api/test"));
    (reflexivity || discriminate).
Defined.

(** C9: whatever the path, the CORS middleware answers an OPTIONS request
    with status 200 by itself: the answer is the same for every wrapped
    handler, invokes no operation of the controller and leaves the table as it
    was. *)
Theorem options_answered_by_middleware (next : Request → Outcome) (r : Request) :
  Method r = "OPTIONS" →
  corsMiddleware next r = (corsHeaders, WriteHeader StatusOK)
  ∧ (∀ next', corsMiddleware next' r = corsMiddleware next r)
  ∧ invokes_controller (snd (corsMiddleware next r)) = false
  ∧ ∀ db, serve r db
          = ({| StatusCode := 200; ResponseHeader := corsHeaders;
                Content := NoBody |}, db).
Proof.
  intros Hm.
  assert (H : ∀ n, corsMiddleware n r = (corsHeaders, WriteHeader StatusOK)).
  { intros n. unfold corsMiddleware. now rewrite Hm. }
  split; [apply H|]. split; [intros n; now rewrite !H|].
  split; [now rewrite H|].
  intros db. unfold serve, handler. now rewrite H.
Qed.

Lemma options_answered_by_middleware_witness :
  corsMiddleware mux (bodyless "OPTIONS" "/no/such/path")
  = (corsHeaders, WriteHeader StatusOK).
Proof.
  apply (options_answered_by_middleware mux
           (bodyless "OPTIONS" "/no/such/path")).
  reflexivity.
Defined.

(** ** Methods the router does not recognise *)

Lemma serve_through_middleware (r : Request) (db : Controllers.Store) :
  Method r ≠ "OPTIONS" →
  mux r = HttpError "Method not allowed" StatusMethodNotAllowed →
  serve r db
  = ({| StatusCode := StatusMethodNotAllowed; ResponseHeader := corsHeaders;
        Content := Text "Method not allowed" |}, db).
Proof.
  intros Hopt Hmux. unfold serve, handler, corsMiddleware.
  now rewrite (eqb_false_of_ne _ _ Hopt), Hmux.
Qed.

(** C7 (as stated, refuted): OPTIONS is a method other than GET and POST, and
    the request OPTIONS [/api/test] is answered 200 by the CORS middleware,
    so not every unrecognised method on a matched path is answered 405. *)
Lemma unrecognized_method_not_always_405 :
  StatusCode (fst (serve (bodyless "OPTIONS" "/api/test") Controllers.empty)) = 200
  ∧ ¬ (∀ (r : Request) (db : Controllers.Store),
         Path r = "/api/test" →
         Method r ≠ "GET" → Method r ≠ "POST" →
         StatusCode (fst (serve r db)) = StatusMethodNotAllowed).
Proof.
  split; [reflexivity|].
  intros H.
  assert (Habs : StatusOK = StatusMethodNotAllowed).
  { apply (H (bodyless "OPTIONS" "/api/test") Controllers.empty);
      [reflexivity | discriminate | discriminate]. }
  discriminate Habs.
Qed.

(** C7 (amended): for every request to a matched path with a method other
    than OPTIONS that the router does not recognise (any method other than
    GET and POST on [/api/test] or [/api/test/], any method other than GET,
    PUT and DELETE on [/api/test/{id}] with an integer [id]) the response
    status is 405, and the table is left as it was. *)
Theorem unrecognized_method_405 (r : Request) (db : Controllers.Store) :
  Method r ≠ "OPTIONS" →
  ((Path r = "/api/test" ∨ Path r = "/api/test/")
   ∧ Method r ≠ "GET" ∧ Method r ≠ "POST")
  ∨ (∃ seg id, Path r = String.append "/api/test/" seg
               ∧ Strconv.Atoi seg = Some id
               ∧ Method r ≠ "GET" ∧ Method r ≠ "PUT" ∧ Method r ≠ "DELETE") →
  serve r db
  = ({| StatusCode := StatusMethodNotAllowed; ResponseHeader := corsHeaders;
        Content := Text "Method not allowed" |}, db).
Proof.
  intros Hopt Hcase. apply serve_through_middleware; [assumption|].
  destruct Hcase as [[Hpath [Hg Hp]] | [seg [id [Hpath [Hatoi [Hg [Hp Hd]]]]]]].
  - rewrite (mux_collection r Hpath), (apiTestHandler_collection r Hpath).
    now rewrite (eqb_false_of_ne _ _ Hg), (eqb_false_of_ne _ _ Hp).
  - destruct (Atoi_plain seg id Hatoi) as [Hne Hplain].
    rewrite (mux_api_test_segment r seg Hpath Hne Hplain).
    rewrite (apiTestHandler_segment r seg Hpath Hne), Hatoi.
    unfold dispatchItem.
    now rewrite (eqb_false_of_ne _ _ Hg), (eqb_false_of_ne _ _ Hp),
      (eqb_false_of_ne _ _ Hd).
Qed.

Lemma unrecognized_method_405_witness :
  StatusCode (fst (serve (bodyless "PATCH" "/api/test/42")
                         Controllers.empty)) = 405.
Proof.
  rewrite (unrecognized_method_405
             (bodyless "PATCH" "/api/test/42")
             Controllers.empty).
  - reflexivity.
  - discriminate.
  - right. exists "42", 42. repeat split; (reflexivity || discriminate).
Defined.

(** ** The controller *)

Section Controller.
Import Controllers.

Lemma submitted_some (inp : TestProjectsInput.t) (name : string) :
  TestProjectsInput.Name inp = Some name → submitted inp = name.
Proof. unfold submitted. now intros ->. Qed.

Lemma submitted_absent (inp : TestProjectsInput.t) :
  TestProjectsInput.Name inp = None ∨ TestProjectsInput.Name inp = Some "" →
  submitted inp = "".
Proof. unfold submitted. now intros [-> | ->]. Qed.

Lemma ids_generated_empty : ids_generated empty.
Proof. intros id [x Hx]. simpl in Hx. now rewrite lookup_empty in Hx. Qed.

Lemma names_non_null_empty : names_non_null empty.
Proof. intros id name Hx. simpl in Hx. now rewrite lookup_empty in Hx. Qed.

Lemma ids_generated_fresh (db : Store) :
  ids_generated db → rows db !! next_id db = None.
Proof.
  intros Hgen. destruct (rows db !! next_id db) eqn:Hl; [|reflexivity].
  assert (next_id db < next_id db) by (apply Hgen; eauto). lia.
Qed.

Lemma exec_ids_generated (op : Op) (db : Store) :
  ids_generated db → ids_generated (snd (exec op db)).
Proof.
  intros Hgen. destruct op as [|id|inp|id inp|id]; simpl.
  - exact Hgen.
  - unfold GetById. now destruct (rows db !! id).
  - unfold Create. destruct (String.eqb (submitted inp) ""); [exact Hgen|].
    intros id' Hid'. simpl in *.
    destruct (decide (id' = next_id db)) as [-> | Hne]; [lia|].
    rewrite lookup_insert_ne in Hid' by congruence.
    specialize (Hgen id' Hid'). lia.
  - unfold Update. destruct (rows db !! id) eqn:Hl; [|exact Hgen].
    intros id' Hid'. simpl in *.
    destruct (decide (id' = id)) as [-> | Hne]; [apply Hgen; eauto|].
    rewrite lookup_insert_ne in Hid' by congruence. now apply Hgen.
  - unfold Delete. destruct (rows db !! id) eqn:Hl; [|exact Hgen].
    intros id' Hid'. simpl in *.
    destruct (decide (id' = id)) as [-> | Hne].
    + rewrite lookup_delete_eq in Hid'. now destruct Hid'.
    + rewrite lookup_delete_ne in Hid' by congruence. now apply Hgen.
Qed.

Lemma reachable_ids_generated (db : Store) : reachable db → ids_generated db.
Proof.
  induction 1 as [|op db _ IH]; [apply ids_generated_empty|].
  now apply exec_ids_generated.
Qed.

Lemma exec_next_id_mono (op : Op) (db : Store) :
  next_id db ≤ next_id (snd (exec op db)).
Proof.
  destruct op as [|id|inp|id inp|id]; simpl.
  - lia.
  - unfold GetById. destruct (rows db !! id); simpl; lia.
  - unfold Create. destruct (String.eqb (submitted inp) ""); simpl; lia.
  - unfold Update. destruct (rows db !! id); simpl; lia.
  - unfold Delete. destruct (rows db !! id); simpl; lia.
Qed.

Lemma GetById_store (db : Store) (id : Z) : snd (GetById db id) = db.
Proof. unfold GetById. now destruct (rows db !! id). Qed.

Lemma Create_names_non_null (db : Store) (inp : TestProjectsInput.t) :
  names_non_null db → names_non_null (snd (Create db inp)).
Proof.
  intros Hinv. unfold Create.
  destruct (String.eqb (submitted inp) ""); [exact Hinv|].
  intros id' name' Hl. simpl in Hl.
  destruct (decide (id' = next_id db)) as [-> | Hne].
  - rewrite lookup_insert_eq in Hl. now inversion Hl.
  - rewrite lookup_insert_ne in Hl by congruence. eapply Hinv; eassumption.
Qed.

Lemma Update_names_non_null (db : Store) (id : Z) (inp : TestProjectsInput.t) :
  names_non_null db → names_non_null (snd (Update db id inp)).
Proof.
  intros Hinv. unfold Update.
  destruct (rows db !! id) eqn:Hold; [|exact Hinv].
  intros id' name' Hl. simpl in Hl.
  destruct (decide (id' = id)) as [-> | Hne].
  - rewrite lookup_insert_eq in Hl. now inversion Hl.
  - rewrite lookup_insert_ne in Hl by congruence. eapply Hinv; eassumption.
Qed.

Lemma Delete_names_non_null (db : Store) (id : Z) :
  names_non_null db → names_non_null (snd (Delete db id)).
Proof.
  intros Hinv. unfold Delete.
  destruct (rows db !! id) eqn:Hold; [|exact Hinv].
  intros id' name' Hl. simpl in Hl.
  destruct (decide (id' = id)) as [-> | Hne].
  - now rewrite lookup_delete_eq in Hl.
  - rewrite lookup_delete_ne in Hl by congruence. eapply Hinv; eassumption.
Qed.

Lemma run_next_id_mono (ops : list Op) :
  ∀ db, next_id db ≤ next_id (run ops db).
Proof.
  induction ops as [|op ops IH]; intros db; [simpl; lia|].
  change (run (op :: ops) db) with (run ops (snd (exec op db))).
  pose proof (exec_next_id_mono op db). specialize (IH (snd (exec op db))).
  lia.
Qed.

(** Identifiers are never handed out twice, whatever happens in between:
    a later create gets a larger identifier than an earlier one. *)
Lemma created_ids_increase (db db1 db2 : Store) (ops : list Op)
    (inp1 inp2 : TestProjectsInput.t) (p1 p2 : TestProjects.t) :
  Create db inp1 = ((StatusCreated, JsonRecord p1), db1) →
  Create (run ops db1) inp2 = ((StatusCreated, JsonRecord p2), db2) →
  TestProjects.Id p1 < TestProjects.Id p2.
Proof.
  unfold Create.
  destruct (String.eqb (submitted inp1) ""); [discriminate|].
  destruct (String.eqb (submitted inp2) ""); [discriminate|].
  intros H1 H2. inversion H1; subst. inversion H2; subst. simpl.
  pose proof (run_next_id_mono ops
    {| rows := <[next_id db := Some (submitted inp1)]> (rows db);
       next_id := next_id db + 1 |}) as Hmono.
  simpl in Hmono. lia.
Qed.

End Controller.

Section ControllerOperations.
Import Controllers.

(** C1: on a table whose generator is ahead of the identifiers in use, a
    create request with a non-empty name answers with a newly assigned
    identifier: no stored record has it, it is larger than every identifier
    in use, and no later create is given it again.  Get-by-id with that
    identifier then returns a record whose name is the submitted one. *)
Theorem create_then_get (db : Store) (inp : TestProjectsInput.t) (name : string) :
  ids_generated db →
  TestProjectsInput.Name inp = Some name →
  name ≠ "" →
  ∃ id db',
    Create db inp = ((StatusCreated, JsonRecord (record id (Some name))), db')
    ∧ rows db !! id = None
    ∧ (∀ id', is_Some (rows db !! id') → id' < id)
    ∧ (∀ ops inp2 p2 db2,
         Create (run ops db') inp2 = ((StatusCreated, JsonRecord p2), db2) →
         id < TestProjects.Id p2)
    ∧ GetById db' id = ((StatusOK, JsonRecord (record id (Some name))), db').
Proof.
  intros Hgen Hname Hne.
  assert (Hcreate : Create db inp
            = ((StatusCreated, JsonRecord (record (next_id db) (Some name))),
               {| rows := <[next_id db := Some name]> (rows db);
                  next_id := next_id db + 1 |})).
  { unfold Create. rewrite (submitted_some inp name Hname).
    now rewrite (eqb_false_of_ne _ _ Hne). }
  eexists _, _. split; [exact Hcreate|].
  split; [now apply ids_generated_fresh|].
  split; [exact Hgen|].
  split.
  - intros ops inp2 p2 db2 Hlater.
    exact (created_ids_increase _ _ _ ops inp inp2 _ p2 Hcreate Hlater).
  - unfold GetById. simpl. now rewrite lookup_insert_eq.
Qed.

Lemma create_then_get_witness :
  ∃ id db',
    Create empty {| TestProjectsInput.Name := Some "alpha" |}
    = ((StatusCreated, JsonRecord (record id (Some "alpha"))), db')
    ∧ rows empty !! id = None
    ∧ (∀ id', is_Some (rows empty !! id') → id' < id)
    ∧ (∀ ops inp2 p2 db2,
         Create (run ops db') inp2 = ((StatusCreated, JsonRecord p2), db2) →
         id < TestProjects.Id p2)
    ∧ GetById db' id = ((StatusOK, JsonRecord (record id (Some "alpha"))), db').
Proof.
  apply (create_then_get empty {| TestProjectsInput.Name := Some "alpha" |} "alpha").
  - exact ids_generated_empty.
  - reflexivity.
  - discriminate.
Defined.

(** C2: a create request whose name is empty or missing is answered 400 and
    the table is left as it was: no record is persisted. *)
Theorem create_without_name (db : Store) (inp : TestProjectsInput.t) :
  TestProjectsInput.Name inp = None ∨ TestProjectsInput.Name inp = Some "" →
  fst (fst (Create db inp)) = 400
  ∧ snd (Create db inp) = db
  ∧ rows (snd (Create db inp)) = rows db.
Proof.
  intros Hname. unfold Create. rewrite (submitted_absent inp Hname).
  repeat split.
Qed.

Lemma create_without_name_witness :
  fst (fst (Create empty {| TestProjectsInput.Name := None |})) = 400
  ∧ fst (fst (Create empty {| TestProjectsInput.Name := Some "" |})) = 400.
Proof.
  split.
  - apply (create_without_name empty {| TestProjectsInput.Name := None |}).
    left. reflexivity.
  - apply (create_without_name empty {| TestProjectsInput.Name := Some "" |}).
    right. reflexivity.
Defined.

(** C3: an update request for an identifier without a stored record is
    answered 404 and leaves the table as it was; for an identifier with a
    stored record it is answered 200, afterwards the record of that
    identifier carries the submitted name, the identifiers in use are the
    same and every other record is as it was. *)
Theorem update_frame (db : Store) (id : Z) (inp : TestProjectsInput.t) :
  (rows db !! id = None →
     fst (fst (Update db id inp)) = 404 ∧ snd (Update db id inp) = db)
  ∧ (is_Some (rows db !! id) →
     fst (fst (Update db id inp)) = 200
     ∧ GetById (snd (Update db id inp)) id
       = ((StatusOK, JsonRecord (record id (Some (submitted inp)))),
          snd (Update db id inp))
     ∧ dom (rows (snd (Update db id inp))) = dom (rows db)
     ∧ next_id (snd (Update db id inp)) = next_id db
     ∧ ∀ id', id' ≠ id →
         rows (snd (Update db id inp)) !! id' = rows db !! id').
Proof.
  unfold Update. split.
  - intros ->. split; reflexivity.
  - intros [old Hold]. rewrite Hold. simpl.
    split; [reflexivity|]. split.
    { unfold GetById. simpl. now rewrite lookup_insert_eq. }
    split.
    { apply dom_insert_lookup_L. eauto. }
    split; [reflexivity|].
    intros id' Hne. now rewrite lookup_insert_ne by congruence.
Qed.

Lemma update_frame_witness :
  fst (fst (Update empty 7 {| TestProjectsInput.Name := Some "beta" |})) = 404
  ∧ fst (fst (Update {| rows := {[ 1 := Some "alpha" ]}; next_id := 2 |} 1
                     {| TestProjectsInput.Name := Some "beta" |})) = 200.
Proof.
  split.
  - apply (update_frame empty 7 {| TestProjectsInput.Name := Some "beta" |}).
    reflexivity.
  - apply (update_frame {| rows := {[ 1 := Some "alpha" ]}; next_id := 2 |} 1
                        {| TestProjectsInput.Name := Some "beta" |}).
    exists (Some "alpha"). reflexivity.
Defined.

(** C4: get-by-id on an identifier without a stored record is answered
    404; and after a delete that succeeded, get-by-id on the same
    identifier is answered 404. *)
Theorem get_missing_404 (db : Store) (id : Z) :
  (rows db !! id = None → fst (fst (GetById db id)) = 404)
  ∧ (fst (fst (Delete db id)) = 200 →
     rows (snd (Delete db id)) !! id = None
     ∧ fst (fst (GetById (snd (Delete db id)) id)) = 404).
Proof.
  split.
  - intros H. unfold GetById. now rewrite H.
  - unfold Delete. destruct (rows db !! id) eqn:Hl; simpl.
    + intros _. unfold GetById. simpl. rewrite lookup_delete_eq. now split.
    + discriminate.
Qed.

Lemma get_missing_404_witness :
  fst (fst (GetById empty 3)) = 404
  ∧ fst (fst (GetById (snd (Delete {| rows := {[ 1 := Some "alpha" ]};
                                      next_id := 2 |} 1)) 1)) = 404.
Proof.
  split.
  - apply (proj1 (get_missing_404 empty 3)). reflexivity.
  - apply (proj2 (get_missing_404
                    {| rows := {[ 1 := Some "alpha" ]}; next_id := 2 |} 1)).
    reflexivity.
Defined.

(** C5: the invariant that every stored record has a non-null name is
    preserved by each of the five operations, list, get-by-id, create,
    update and delete, from any table that satisfies it. *)
Theorem names_non_null_preserved (op : Op) (db : Store) :
  names_non_null db → names_non_null (snd (exec op db)).
Proof.
  intros Hinv. destruct op as [|id|inp|id inp|id]; simpl.
  - exact Hinv.
  - now rewrite GetById_store.
  - now apply Create_names_non_null.
  - now apply Update_names_non_null.
  - now apply Delete_names_non_null.
Qed.

Lemma names_non_null_preserved_witness :
  names_non_null
    (snd (exec (OpCreate {| TestProjectsInput.Name := Some "alpha" |}) empty)).
Proof.
  apply (names_non_null_preserved
           (OpCreate {| TestProjectsInput.Name := Some "alpha" |}) empty).
  exact names_non_null_empty.
Defined.

End ControllerOperations.

(** ** Histories of the table *)

Section Histories.
Import Controllers.

Lemma reachable_names_non_null (db : Store) : reachable db → names_non_null db.
Proof.
  induction 1 as [|op db _ IH]; [apply names_non_null_empty|].
  destruct op as [|id|inp|id inp|id]; simpl.
  - exact IH.
  - now rewrite GetById_store.
  - now apply Create_names_non_null.
  - now apply Update_names_non_null.
  - now apply Delete_names_non_null.
Qed.

Lemma run_reachable (ops : list Op) :
  ∀ db, reachable db → reachable (run ops db).
Proof.
  induction ops as [|op ops IH]; intros db Hdb; [exact Hdb|].
  change (run (op :: ops) db) with (run ops (snd (exec op db))).
  apply IH. now constructor.
Qed.

(** Every request leaves the invariant of the table in place. *)
Lemma serve_names_non_null (r : Request) (db : Store) :
  names_non_null db → names_non_null (snd (serve r db)).
Proof.
  intros Hinv. unfold serve. destruct (handler r) as [hdr o].
  destruct (perform o r db) as [reply db'] eqn:Hperf. simpl.
  replace db' with (snd (perform o r db)) by now rewrite Hperf.
  destruct o; simpl;
    [ exact Hinv
    | now apply Create_names_non_null
    | now rewrite GetById_store
    | now apply Update_names_non_null
    | now apply Delete_names_non_null
    | exact Hinv .. ].
Qed.

End Histories.

(** * Further properties of the router *)

(** ** Splitting a path at a prefix *)

Lemma substring_split (s : string) :
  ∀ n, (n ≤ String.length s)%nat →
  String.append (substring 0 n s) (substring n (String.length s - n) s) = s.
Proof.
  induction s as [|c s IH]; intros n Hn.
  - destruct n; reflexivity.
  - destruct n as [|n].
    + change (String.append (substring 0 0 (String c s))
                (substring 0 (String.length (String c s) - 0) (String c s)))
        with (substring 0 (S (String.length s)) (String c s)).
      exact (substring_0_length (String c s)).
    + change (String c (String.append (substring 0 n s)
                          (substring n (String.length s - n) s)) = String c s).
      rewrite IH; [reflexivity | simpl in Hn; lia].
Qed.

Lemma HasPrefix_split (s p : string) :
  Strings.HasPrefix s p = true →
  String.append p (Strings.TrimPrefix s p) = s.
Proof.
  intros H. unfold Strings.TrimPrefix. rewrite H.
  unfold Strings.HasPrefix in H. apply andb_true_iff in H as [Hlen Heq].
  apply Nat.leb_le in Hlen. apply String.eqb_eq in Heq.
  rewrite <- Heq at 1. now apply substring_split.
Qed.

Lemma append_empty_r (s : string) : String.append s "" = s.
Proof.
  induction s as [|c s IH]; [reflexivity|].
  change (String c (String.append s "") = String c s). now rewrite IH.
Qed.

(** ** The three kinds of path the router tells apart *)

Lemma apiTestHandler_cases (r : Request) :
  ((Path r = "/api/test" ∨ Path r = "/api/test/")
   ∧ apiTestHandler r = dispatchCollection (Method r))
  ∨ (∃ seg, seg ≠ ""
            ∧ Path r = String.append "/api/test/" seg
            ∧ apiTestHandler r =
                match Strconv.Atoi seg with
                | None => HttpError "Invalid ID" StatusBadRequest
                | Some id => dispatchItem (Method r) id
                end)
  ∨ (Path r ≠ "/api/test"
     ∧ Strings.HasPrefix (Path r) "/api/test/" = false
     ∧ apiTestHandler r = HttpNotFound).
Proof.
  destruct (String.eqb (Path r) "/api/test") eqn:H1.
  { left. apply String.eqb_eq in H1. split; [now left|].
    now rewrite (apiTestHandler_collection r (or_introl H1)). }
  destruct (String.eqb (Path r) "/api/test/") eqn:H2.
  { left. apply String.eqb_eq in H2. split; [now right|].
    now rewrite (apiTestHandler_collection r (or_intror H2)). }
  apply String.eqb_neq in H1. apply String.eqb_neq in H2.
  destruct (Strings.HasPrefix (Path r) "/api/test/") eqn:H3.
  - right. left. exists (Strings.TrimPrefix (Path r) "/api/test/").
    pose proof (HasPrefix_split _ _ H3) as Hsplit.
    assert (Hne : Strings.TrimPrefix (Path r) "/api/test/" ≠ "").
    { intros Hempty. rewrite Hempty in Hsplit. apply H2. now rewrite <- Hsplit. }
    split; [exact Hne|]. split; [now rewrite Hsplit|].
    now apply apiTestHandler_segment.
  - right. right. split; [exact H1|]. split; [reflexivity|].
    unfold apiTestHandler.
    now rewrite (eqb_false_of_ne _ _ H1), (eqb_false_of_ne _ _ H2), H3.
Qed.

Lemma dispatchCollection_cases (m : string) :
  (m = "GET" ∧ dispatchCollection m = CallGetAll)
  ∨ (m = "POST" ∧ dispatchCollection m = CallCreate)
  ∨ (m ≠ "GET" ∧ m ≠ "POST"
     ∧ dispatchCollection m = HttpError "Method not allowed" StatusMethodNotAllowed).
Proof.
  unfold dispatchCollection.
  destruct (String.eqb m "GET") eqn:Hg.
  { left. apply String.eqb_eq in Hg. now split. }
  destruct (String.eqb m "POST") eqn:Hp.
  { right. left. apply String.eqb_eq in Hp. now split. }
  right. right. apply String.eqb_neq in Hg. apply String.eqb_neq in Hp.
  now repeat split.
Qed.

Lemma dispatchItem_cases (m : string) (id : Z) :
  (m = "GET" ∧ dispatchItem m id = CallGetById id)
  ∨ (m = "PUT" ∧ dispatchItem m id = CallUpdate id)
  ∨ (m = "DELETE" ∧ dispatchItem m id = CallDelete id)
  ∨ (m ≠ "GET" ∧ m ≠ "PUT" ∧ m ≠ "DELETE"
     ∧ dispatchItem m id = HttpError "Method not allowed" StatusMethodNotAllowed).
Proof.
  unfold dispatchItem.
  destruct (String.eqb m "GET") eqn:Hg.
  { left. apply String.eqb_eq in Hg. now split. }
  destruct (String.eqb m "PUT") eqn:Hp.
  { right. left. apply String.eqb_eq in Hp. now split. }
  destruct (String.eqb m "DELETE") eqn:Hd.
  { right. right. left. apply String.eqb_eq in Hd. now split. }
  right. right. right.
  apply String.eqb_neq in Hg. apply String.eqb_neq in Hp. apply String.eqb_neq in Hd.
  now repeat split.
Qed.

(** ** What the mux can select *)

Section MuxSelection.
Context {H : Type}.
Variable pats : list (string * H).

Lemma exact_sound (path : string) (h : H) :
  NetHttp.exact pats path = Some h → In (path, h) pats.
Proof.
  unfold NetHttp.exact. intros Hex.
  destruct (find (λ e, String.eqb (fst e) path) pats) as [[p h']|] eqn:Hfind;
    [|discriminate].
  apply find_some in Hfind as [Hin Heq]. simpl in Heq, Hex.
  apply String.eqb_eq in Heq. inversion Hex. now subst.
Qed.

Lemma longestPrefix_sound (path : string) (e : string * H) :
  NetHttp.longestPrefix pats path = Some e →
  In e pats ∧ NetHttp.endsInSlash (fst e) = true
  ∧ Strings.HasPrefix path (fst e) = true.
Proof.
  unfold NetHttp.longestPrefix.
  set (step := λ (best : option (string * H)) (e0 : string * H),
         if NetHttp.endsInSlash (fst e0) && Strings.HasPrefix path (fst e0)
            && match best with
               | Some b => (String.length (fst b) <? String.length (fst e0))%nat
               | None => true
               end
         then Some e0 else best).
  assert (Hgen : ∀ l best,
            (∀ b, best = Some b →
                  In b pats ∧ NetHttp.endsInSlash (fst b) = true
                  ∧ Strings.HasPrefix path (fst b) = true) →
            (∀ x, In x l → In x pats) →
            fold_left step l best = Some e →
            In e pats ∧ NetHttp.endsInSlash (fst e) = true
            ∧ Strings.HasPrefix path (fst e) = true).
  { induction l as [|x l IH]; intros best Hbest Hl Hfold.
    - now apply Hbest.
    - simpl in Hfold. apply (IH (step best x)); [|intros y Hy; apply Hl; now right|exact Hfold].
      intros b Hb. unfold step in Hb.
      destruct (NetHttp.endsInSlash (fst x)) eqn:Hs; simpl in Hb; [|now apply Hbest].
      destruct (Strings.HasPrefix path (fst x)) eqn:Hp; simpl in Hb; [|now apply Hbest].
      destruct (match best with
                | Some b0 => (String.length (fst b0) <? String.length (fst x))%nat
                | None => true
                end); [|now apply Hbest].
      inversion Hb; subst b. split; [apply Hl; now left | now split]. }
  apply Hgen; [discriminate | auto].
Qed.

Lemma Handler_found (r : Request) (h : H) :
  NetHttp.Handler pats r = NetHttp.Found h →
  NetHttp.match_ pats (Path r) = Some h.
Proof.
  unfold NetHttp.Handler, NetHttp.handler. intros Hh.
  destruct (String.eqb (Method r) "CONNECT").
  - destruct (NetHttp.shouldRedirect pats (Path r)); [discriminate|].
    destruct (NetHttp.match_ pats (Path r)); [now inversion Hh | discriminate].
  - destruct (NetHttp.shouldRedirect pats (NetHttp.cleanPath (Path r)));
      [discriminate|].
    destruct (negb (String.eqb (NetHttp.cleanPath (Path r)) (Path r)));
      [discriminate|].
    destruct (NetHttp.match_ pats (Path r)); [now inversion Hh | discriminate].
Qed.

Lemma match_sound (path : string) (h : H) :
  NetHttp.match_ pats path = Some h →
  In (path, h) pats
  ∨ ∃ p, In (p, h) pats ∧ NetHttp.endsInSlash p = true
         ∧ Strings.HasPrefix path p = true.
Proof.
  unfold NetHttp.match_. destruct (NetHttp.exact pats path) as [h'|] eqn:Hex.
  - intros Heq. inversion Heq; subst. left. now apply exact_sound.
  - destruct (NetHttp.longestPrefix pats path) as [[p h']|] eqn:Hl; [|discriminate].
    intros Heq. inversion Heq; subst.
    apply longestPrefix_sound in Hl as [Hin [Hs Hp]]. right. now exists p.
Qed.

End MuxSelection.

Lemma HasPrefix_self (p : string) : Strings.HasPrefix p p = true.
Proof.
  rewrite <- (append_empty_r p) at 1. apply HasPrefix_app.
Qed.

(** The router is selected only for the paths it was registered for. *)
Lemma router_selected (r : Request) :
  NetHttp.Handler patterns r = NetHttp.Found ApiTestHandler →
  Path r = "/api/test" ∨ Strings.HasPrefix (Path r) "/api/test/" = true.
Proof.
  intros Hh. apply Handler_found in Hh. apply match_sound in Hh.
  destruct Hh as [Hin | [p [Hin [Hs Hp]]]].
  - simpl in Hin.
    destruct Hin as [Hin|[Hin|[Hin|[Hin|[Hin|[Hin|[]]]]]]]; inversion Hin.
    + now left.
    + right. apply HasPrefix_self.
  - simpl in Hin.
    destruct Hin as [Hin|[Hin|[Hin|[Hin|[Hin|[Hin|[]]]]]]]; inversion Hin; subst p.
    + discriminate Hs.
    + now right.
Qed.

Lemma mux_call_is_router (r : Request) :
  invokes_controller (mux r) = true →
  mux r = apiTestHandler r
  ∧ (Path r = "/api/test" ∨ Strings.HasPrefix (Path r) "/api/test/" = true).
Proof.
  unfold mux. destruct (NetHttp.Handler patterns r) as [h| |] eqn:Hh;
    [|discriminate|discriminate].
  destruct h; simpl; try discriminate.
  - destruct (negb (String.eqb (Path r) "/")); discriminate.
  - intros _. split; [reflexivity | now apply router_selected].
Qed.

Lemma handler_outcome (r : Request) :
  (Method r = "OPTIONS" ∧ snd (handler r) = WriteHeader StatusOK)
  ∨ (Method r ≠ "OPTIONS" ∧ snd (handler r) = mux r).
Proof.
  unfold handler, corsMiddleware. simpl.
  destruct (String.eqb (Method r) "OPTIONS") eqn:Ho.
  - left. apply String.eqb_eq in Ho. now split.
  - right. apply String.eqb_neq in Ho. now split.
Qed.

Lemma mux_error_is_router (r : Request) (msg : string) (code : Z) :
  mux r = HttpError msg code →
  apiTestHandler r = HttpError msg code
  ∧ (Path r = "/api/test" ∨ Strings.HasPrefix (Path r) "/api/test/" = true).
Proof.
  unfold mux. destruct (NetHttp.Handler patterns r) as [h| |] eqn:Hh;
    [|discriminate|discriminate].
  destruct h; simpl; try discriminate.
  - destruct (negb (String.eqb (Path r) "/")); discriminate.
  - intros Herr. split; [exact Herr | now apply router_selected].
Qed.

(** ** The identifier segment *)

(** [idStr] is what follows the prefix: putting the prefix back in front of
    it gives the path again, and taking the prefix off a path built that way
    gives the segment back. *)
Theorem idStr_round_trip (path seg : string) :
  (Strings.HasPrefix path "/api/test/" = true →
   String.append "/api/test/" (Strings.TrimPrefix path "/api/test/") = path)
  ∧ Strings.HasPrefix (String.append "/api/test/" seg) "/api/test/" = true
  ∧ Strings.TrimPrefix (String.append "/api/test/" seg) "/api/test/" = seg.
Proof.
  split; [apply HasPrefix_split|].
  split; [apply HasPrefix_app | apply TrimPrefix_app].
Qed.

Lemma idStr_round_trip_witness :
  String.append "/api/test/" (Strings.TrimPrefix "/api/test/42/x" "/api/test/")
  = "/api/test/42/x".
Proof.
  apply (proj1 (idStr_round_trip "/api/test/42/x" "")). reflexivity.
Defined.

(** When the first test of [apiTestHandler] fails and the path has the
    prefix [/api/test/], the identifier string is not empty: the inner
    branch for an empty identifier is never taken. *)
Theorem empty_idStr_unreachable (r : Request) :
  String.eqb (Path r) "/api/test" || String.eqb (Path r) "/api/test/" = false →
  Strings.HasPrefix (Path r) "/api/test/" = true →
  String.eqb (Strings.TrimPrefix (Path r) "/api/test/") "" = false.
Proof.
  intros Hfirst Hprefix. apply orb_false_iff in Hfirst as [_ Hslash].
  apply String.eqb_neq in Hslash. apply String.eqb_neq. intros Hempty.
  apply Hslash. rewrite <- (HasPrefix_split _ _ Hprefix), Hempty. reflexivity.
Qed.

Lemma empty_idStr_unreachable_witness :
  String.eqb (Strings.TrimPrefix (Path (bodyless "GET" "/api/test/7")) "/api/test/") ""
  = false.
Proof.
  apply (empty_idStr_unreachable (bodyless "GET" "/api/test/7")); reflexivity.
Defined.

(** ** When the router answers 404 *)

Lemma apiTestHandler_matched (r : Request) :
  Path r = "/api/test" ∨ Strings.HasPrefix (Path r) "/api/test/" = true →
  apiTestHandler r ≠ HttpNotFound.
Proof.
  intros Hmatched.
  destruct (apiTestHandler_cases r)
    as [[Hpath Hr] | [[seg [Hne [Hpath Hr]]] | [Hn [Hp Hr]]]]; rewrite Hr.
  - destruct (dispatchCollection_cases (Method r))
      as [[_ ->] | [[_ ->] | [_ [_ ->]]]]; discriminate.
  - destruct (Strconv.Atoi seg) as [id|]; [|discriminate].
    destruct (dispatchItem_cases (Method r) id)
      as [[_ ->] | [[_ ->] | [[_ ->] | [_ [_ [_ ->]]]]]]; discriminate.
  - exfalso. destruct Hmatched as [Hpath | Hpre]; [now apply Hn|].
    rewrite Hpre in Hp. discriminate Hp.
Qed.

(** The router answers "not found" exactly for the paths that are neither
    [/api/test] nor begin with [/api/test/]. *)
Theorem router_not_found_iff (r : Request) :
  apiTestHandler r = HttpNotFound
  ↔ Path r ≠ "/api/test" ∧ Strings.HasPrefix (Path r) "/api/test/" = false.
Proof.
  split.
  - intros Hnf. split.
    + intros Hpath. now apply (apiTestHandler_matched r (or_introl Hpath)).
    + destruct (Strings.HasPrefix (Path r) "/api/test/") eqn:Hpre; [|reflexivity].
      exfalso. now apply (apiTestHandler_matched r (or_intror Hpre)).
  - intros [Hn Hp].
    destruct (apiTestHandler_cases r)
      as [[Hpath Hr] | [[seg [Hne [Hpath Hr]]] | [_ [_ Hr]]]]; [| |exact Hr].
    + exfalso. destruct Hpath as [Hpath | Hpath]; [now apply Hn|].
      rewrite Hpath in Hp. discriminate Hp.
    + exfalso. rewrite Hpath, HasPrefix_app in Hp. discriminate Hp.
Qed.

(** Behind the mux that answer never occurs: whenever the mux selects the
    router, the path is one the router matches. *)
Theorem router_not_found_unreachable (r : Request) :
  NetHttp.Handler patterns r = NetHttp.Found ApiTestHandler →
  apiTestHandler r ≠ HttpNotFound.
Proof.
  intros Hsel. apply apiTestHandler_matched. now apply router_selected.
Qed.

Lemma router_not_found_unreachable_witness :
  apiTestHandler (bodyless "GET" "/api/test/abc") ≠ HttpNotFound.
Proof.
  apply (router_not_found_unreachable (bodyless "GET" "/api/test/abc")).
  reflexivity.
Defined.

(** ** From an outcome back to the request *)

Lemma apiTestHandler_inv (r : Request) :
  match apiTestHandler r with
  | CallGetAll => Method r = "GET" ∧ collection_path r
  | CallCreate => Method r = "POST" ∧ collection_path r
  | CallGetById id => Method r = "GET" ∧ item_path r id
  | CallUpdate id => Method r = "PUT" ∧ item_path r id
  | CallDelete id => Method r = "DELETE" ∧ item_path r id
  | HttpError msg code =>
      (msg = "Invalid ID" ∧ code = StatusBadRequest
       ∧ ∃ seg, seg ≠ "" ∧ Path r = String.append "/api/test/" seg
                ∧ Strconv.Atoi seg = None)
      ∨ (msg = "Method not allowed" ∧ code = StatusMethodNotAllowed
         ∧ ((collection_path r ∧ Method r ≠ "GET" ∧ Method r ≠ "POST")
            ∨ (∃ id, item_path r id ∧ Method r ≠ "GET" ∧ Method r ≠ "PUT"
                     ∧ Method r ≠ "DELETE")))
  | HttpNotFound =>
      Path r ≠ "/api/test" ∧ Strings.HasPrefix (Path r) "/api/test/" = false
  | WriteHeader _ | Redirect _ _ | ServePage _ => False
  end.
Proof.
  destruct (apiTestHandler_cases r)
    as [[Hpath Hr] | [[seg [Hne [Hpath Hr]]] | [Hn [Hp Hr]]]]; rewrite Hr.
  - destruct (dispatchCollection_cases (Method r))
      as [[Hm ->] | [[Hm ->] | [Hg [Hp ->]]]]; [now split | now split |].
    right. split; [reflexivity|]. split; [reflexivity|]. left. now repeat split.
  - destruct (Strconv.Atoi seg) as [id|] eqn:Hatoi.
    + assert (Hitem : item_path r id) by (exists seg; now split).
      destruct (dispatchItem_cases (Method r) id)
        as [[Hm ->] | [[Hm ->] | [[Hm ->] | [Hg [Hp [Hd ->]]]]]];
        [now split | now split | now split |].
      right. split; [reflexivity|]. split; [reflexivity|]. right.
      exists id. now repeat split.
    + left. split; [reflexivity|]. split; [reflexivity|]. exists seg. now repeat split.
  - now split.
Qed.

Lemma handler_answer_is_router (r : Request) (o : Outcome) :
  snd (handler r) = o →
  invokes_controller o = true ∨ (∃ msg code, o = HttpError msg code) →
  Method r ≠ "OPTIONS" ∧ apiTestHandler r = o.
Proof.
  intros Ho Hkind.
  destruct (handler_outcome r) as [[_ Hopt] | [Hm Hmux]].
  - exfalso. rewrite Hopt in Ho. subst o.
    destruct Hkind as [Hc | [msg [code Hc]]]; discriminate.
  - split; [exact Hm|]. rewrite Hmux in Ho.
    destruct Hkind as [Hc | [msg [code Hc]]].
    + rewrite <- Ho in Hc. destruct (mux_call_is_router r Hc) as [Heq _].
      now rewrite <- Heq.
    + subst o. rewrite Hc. now apply (mux_error_is_router r msg code Hc).
Qed.

(** Through middleware and mux, list-all is invoked only by a GET and
    create only by a POST, each on [/api/test] or [/api/test/]. *)
Theorem collection_call_inversion (r : Request) :
  (snd (handler r) = CallGetAll → Method r = "GET" ∧ collection_path r)
  ∧ (snd (handler r) = CallCreate → Method r = "POST" ∧ collection_path r).
Proof.
  split; intros Ho;
    destruct (handler_answer_is_router r _ Ho (or_introl eq_refl)) as [_ Hr];
    pose proof (apiTestHandler_inv r) as Hinv; rewrite Hr in Hinv; exact Hinv.
Qed.

Lemma collection_call_inversion_witness :
  Method (bodyless "POST" "/api/test/") = "POST"
  ∧ collection_path (bodyless "POST" "/api/test/").
Proof.
  apply (proj2 (collection_call_inversion (bodyless "POST" "/api/test/"))).
  reflexivity.
Defined.

(** Through middleware and mux, get-by-id, update and delete are invoked
    only by GET, PUT and DELETE respectively, on a path [/api/test/{seg}]
    whose segment [strconv.Atoi] parses to the identifier passed on. *)
Theorem item_call_inversion (r : Request) (id : Z) :
  (snd (handler r) = CallGetById id → Method r = "GET" ∧ item_path r id)
  ∧ (snd (handler r) = CallUpdate id → Method r = "PUT" ∧ item_path r id)
  ∧ (snd (handler r) = CallDelete id → Method r = "DELETE" ∧ item_path r id).
Proof.
  split; [|split]; intros Ho;
    destruct (handler_answer_is_router r _ Ho (or_introl eq_refl)) as [_ Hr];
    pose proof (apiTestHandler_inv r) as Hinv; rewrite Hr in Hinv; exact Hinv.
Qed.

Lemma item_call_inversion_witness :
  Method (bodyless "PUT" "/api/test/+12") = "PUT"
  ∧ item_path (bodyless "PUT" "/api/test/+12") 12.
Proof.
  apply (proj1 (proj2 (item_call_inversion (bodyless "PUT" "/api/test/+12") 12))).
  reflexivity.
Defined.



(** A 405 answer of the program always means a method the router does not
    serve on a path it matches: neither GET nor POST on the collection path,
    or none of GET, PUT and DELETE on a path with an integer identifier. *)
Theorem method_not_allowed_inversion (r : Request) (msg : string) :
  snd (handler r) = HttpError msg StatusMethodNotAllowed →
  msg = "Method not allowed"
  ∧ Method r ≠ "OPTIONS"
  ∧ ((collection_path r ∧ Method r ≠ "GET" ∧ Method r ≠ "POST")
     ∨ (∃ id, item_path r id ∧ Method r ≠ "GET" ∧ Method r ≠ "PUT"
              ∧ Method r ≠ "DELETE")).
Proof.
  intros Ho.
  destruct (handler_answer_is_router r _ Ho) as [Hm Hr]; [right; eauto|].
  pose proof (apiTestHandler_inv r) as Hinv. rewrite Hr in Hinv.
  destruct Hinv as [[_ [Hcode _]] | [-> [_ Hcase]]]; [discriminate Hcode|].
  now repeat split.
Qed.

Lemma method_not_allowed_inversion_witness :
  (collection_path (bodyless "DELETE" "/api/test")
   ∧ Method (bodyless "DELETE" "/api/test") ≠ "GET"
   ∧ Method (bodyless "DELETE" "/api/test") ≠ "POST")
  ∨ (∃ id, item_path (bodyless "DELETE" "/api/test") id
           ∧ Method (bodyless "DELETE" "/api/test") ≠ "GET"
           ∧ Method (bodyless "DELETE" "/api/test") ≠ "PUT"
           ∧ Method (bodyless "DELETE" "/api/test") ≠ "DELETE").
Proof.
  apply (method_not_allowed_inversion (bodyless "DELETE" "/api/test")
           "Method not allowed").
  reflexivity.
Defined.

(** ** The middleware on requests other than OPTIONS *)



(** ** The informational endpoints *)

Lemma mux_exact_path (r : Request) (h : Registered) :
  NetHttp.cleanPath (Path r) = Path r →
  NetHttp.exact patterns (Path r) = Some h →
  mux r = serveRegistered h r.
Proof.
  intros Hclean Hex. unfold mux, NetHttp.Handler, NetHttp.handler, NetHttp.match_.
  unfold NetHttp.shouldRedirect. rewrite Hclean, Hex, String.eqb_refl. cbn [negb].
  now destruct (String.eqb (Method r) "CONNECT").
Qed.

(** The info page, the health check and the two documentation pages are
    served on their path for every method, not only GET; the table is not
    touched. *)
Theorem info_pages_any_method (r : Request) :
  Method r ≠ "OPTIONS" →
  (Path r = "/" → snd (handler r) = ServePage RootInfo)
  ∧ (Path r = "/health" → snd (handler r) = ServePage Health)
  ∧ (Path r = "/swagger" → snd (handler r) = ServePage SwaggerUI)
  ∧ (Path r = "/swagger.json" → snd (handler r) = ServePage SwaggerJSON)
  ∧ (Path r = "/" ∨ Path r = "/health" ∨ Path r = "/swagger"
     ∨ Path r = "/swagger.json" →
     ∀ db, StatusCode (fst (serve r db)) = 200 ∧ snd (serve r db) = db).
Proof.
  intros Hm.
  assert (Hh : snd (handler r) = mux r).
  { unfold handler, corsMiddleware. simpl. now rewrite (eqb_false_of_ne _ _ Hm). }
  assert (H1 : Path r = "/" → mux r = ServePage RootInfo).
  { intros Hp. rewrite (mux_exact_path r RootHandler); rewrite ?Hp; try reflexivity.
    simpl. now rewrite Hp. }
  assert (H2 : Path r = "/health" → mux r = ServePage Health).
  { intros Hp. now rewrite (mux_exact_path r HealthHandler); rewrite ?Hp. }
  assert (H3 : Path r = "/swagger" → mux r = ServePage SwaggerUI).
  { intros Hp. now rewrite (mux_exact_path r SwaggerHandler); rewrite ?Hp. }
  assert (H4 : Path r = "/swagger.json" → mux r = ServePage SwaggerJSON).
  { intros Hp. now rewrite (mux_exact_path r SwaggerJSONHandler); rewrite ?Hp. }
  rewrite Hh. split; [exact H1|]. split; [exact H2|]. split; [exact H3|].
  split; [exact H4|].
  intros Hpath db.
  assert (Hpage : ∃ p, mux r = ServePage p).
  { destruct Hpath as [Hp | [Hp | [Hp | Hp]]]; eauto. }
  destruct Hpage as [p Hp].
  unfold serve, handler, corsMiddleware. rewrite (eqb_false_of_ne _ _ Hm), Hp.
  now split.
Qed.

Lemma info_pages_any_method_witness :
  snd (handler (bodyless "DELETE" "/health")) = ServePage Health.
Proof.
  apply (info_pages_any_method (bodyless "DELETE" "/health"));
    [discriminate | reflexivity].
Defined.

(** ** Paths no route matches *)

Lemma append_inj_r (a b c : string) :
  String.append a c = String.append b c → a = b.
Proof.
  revert b. induction a as [|x a IH]; intros b Heq.
  - destruct b as [|y b]; [reflexivity|]. exfalso.
    apply (f_equal String.length) in Heq. rewrite !length_app in Heq.
    simpl in Heq. lia.
  - destruct b as [|y b].
    + exfalso. apply (f_equal String.length) in Heq. rewrite !length_app in Heq.
      simpl in Heq. lia.
    + change (String x (String.append a c) = String y (String.append b c)) in Heq.
      inversion Heq. f_equal. now apply IH.
Qed.

Lemma lastByte_append_slash (path : string) :
  NetHttp.lastByte (String.append path "/") = Some "/"%char.
Proof. now rewrite lastByte_app. Qed.

Lemma exact_patterns_inv (path : string) (h : Registered) :
  NetHttp.exact patterns path = Some h →
  path = "/" ∨ path = "/health" ∨ path = "/swagger" ∨ path = "/swagger.json"
  ∨ path = "/api/test" ∨ path = "/api/test/".
Proof.
  intros Hex. apply exact_sound in Hex. simpl in Hex.
  destruct Hex as [Hin|[Hin|[Hin|[Hin|[Hin|[Hin|[]]]]]]]; inversion Hin; tauto.
Qed.

Lemma no_slash_redirect (path : string) :
  path ≠ "/api/test" → NetHttp.shouldRedirect patterns path = false.
Proof.
  intros Hne. unfold NetHttp.shouldRedirect.
  destruct (NetHttp.exact patterns path); [reflexivity|].
  destruct path as [|c p]; [reflexivity|].
  destruct (NetHttp.exact patterns (String.append (String c p) "/")) as [h|] eqn:Hex;
    [|reflexivity].
  exfalso. apply exact_patterns_inv in Hex.
  pose proof (lastByte_append_slash (String c p)) as Hlast.
  destruct Hex as [Hex|[Hex|[Hex|[Hex|[Hex|Hex]]]]]; rewrite Hex in Hlast;
    try discriminate Hlast.
  - change (String c (String.append p "/") = "/") in Hex. inversion Hex.
    destruct p; discriminate.
  - apply Hne. apply (append_inj_r _ "/api/test" "/"). exact Hex.
Qed.

(** A canonical path that is none of the registered ones and does not begin
    with [/api/test/] is answered 404, by the handler registered for [/]. *)
Theorem unrouted_path_not_found (r : Request) :
  NetHttp.cleanPath (Path r) = Path r →
  Path r ≠ "/" → Path r ≠ "/health" → Path r ≠ "/swagger" →
  Path r ≠ "/swagger.json" → Path r ≠ "/api/test" →
  Strings.HasPrefix (Path r) "/api/test/" = false →
  mux r = HttpNotFound
  ∧ (Method r ≠ "OPTIONS" →
     ∀ db, StatusCode (fst (serve r db)) = 404 ∧ snd (serve r db) = db).
Proof.
  intros Hclean H1 H2 H3 H4 H5 Hpre.
  assert (Hmux : mux r = HttpNotFound).
  { unfold mux, NetHttp.Handler. rewrite Hclean, String.eqb_refl. cbn [negb].
    rewrite (no_slash_redirect _ H5).
    assert (Hh : match NetHttp.handler patterns (Path r) with
                 | NetHttp.Found h => serveRegistered h r
                 | NetHttp.Moved url => Redirect url StatusMovedPermanently
                 | NetHttp.NoMatch => HttpNotFound
                 end = HttpNotFound).
    { unfold NetHttp.handler.
      destruct (NetHttp.match_ patterns (Path r)) as [h|] eqn:Hmatch; [|reflexivity].
      apply match_sound in Hmatch. destruct Hmatch as [Hin | [p [Hin [Hs Hp]]]].
      - exfalso. simpl in Hin.
        destruct Hin as [Hin|[Hin|[Hin|[Hin|[Hin|[Hin|[]]]]]]]; inversion Hin;
          try congruence.
        rewrite <- H0, HasPrefix_self in Hpre. discriminate Hpre.
      - simpl in Hin.
        destruct Hin as [Hin|[Hin|[Hin|[Hin|[Hin|[Hin|[]]]]]]]; inversion Hin;
          subst p h; try discriminate Hs.
        + simpl. now rewrite (eqb_false_of_ne _ _ H1).
        + rewrite Hp in Hpre. discriminate Hpre. }
    now destruct (String.eqb (Method r) "CONNECT"). }
  split; [exact Hmux|].
  intros Hm db. unfold serve, handler, corsMiddleware.
  rewrite (eqb_false_of_ne _ _ Hm), Hmux. now split.
Qed.

Lemma unrouted_path_not_found_witness :
  mux (bodyless "GET" "/api/tests/3") = HttpNotFound.
Proof.
  apply (unrouted_path_not_found (bodyless "GET" "/api/tests/3"));
    (reflexivity || discriminate).
Defined.

(** ** Operations are invoked on canonical paths only *)




(** ** Start-up *)

(** [main] gets as far as serving exactly when [DATABASE_URL] is set and
    both opening and pinging the database succeed; without the variable it
    stops with its own message whatever the database would answer. *)
Theorem main_serves_iff (env : Environ) (openErr pingErr : option string) :
  (DATABASE_URL env = "" →
   main env openErr pingErr = Fatal "DATABASE_URL environment variable not set")
  ∧ ((∃ addr, main env openErr pingErr = ListenAndServe addr)
     ↔ DATABASE_URL env ≠ "" ∧ openErr = None ∧ pingErr = None).
Proof.
  unfold main. split.
  - intros ->. reflexivity.
  - destruct (String.eqb (DATABASE_URL env) "") eqn:Hurl.
    + apply String.eqb_eq in Hurl. split.
      * intros [addr Haddr]. discriminate Haddr.
      * intros [Hne _]. contradiction.
    + apply String.eqb_neq in Hurl.
      destruct openErr as [e|]; [|destruct pingErr as [e|]].
      * split; [intros [addr Haddr]; discriminate Haddr|].
        intros [_ [Ho _]]. discriminate Ho.
      * split; [intros [addr Haddr]; discriminate Haddr|].
        intros [_ [_ Hp]]. discriminate Hp.
      * split; [now intros _ | intros _; eauto].
Qed.

Lemma main_serves_iff_witness :
  main {| DATABASE_URL := ""; PORT := "9000" |} None None
  = Fatal "DATABASE_URL environment variable not set".
Proof.
  apply (main_serves_iff {| DATABASE_URL := ""; PORT := "9000" |} None None).
  reflexivity.
Defined.

(** When [main] serves, it listens on all interfaces on a port that is never
    empty: the one of [PORT], or 8080 when [PORT] is unset or empty. *)
Theorem main_listen_address (env : Environ) (openErr pingErr : option string)
    (addr : string) :
  main env openErr pingErr = ListenAndServe addr →
  ∃ port, addr = String.append "0.0.0.0:" port
          ∧ port ≠ ""
          ∧ (PORT env = "" → port = "8080")
          ∧ (PORT env ≠ "" → port = PORT env).
Proof.
  unfold main.
  destruct (String.eqb (DATABASE_URL env) ""); [discriminate|].
  destruct openErr; [discriminate|]. destruct pingErr; [discriminate|].
  intros Haddr. inversion Haddr as [Heq]. clear Haddr Heq.
  destruct (String.eqb (PORT env) "") eqn:Hport.
  - apply String.eqb_eq in Hport. exists "8080".
    split; [reflexivity|]. split; [discriminate|].
    split; [reflexivity | intros Hne; contradiction].
  - apply String.eqb_neq in Hport. exists (PORT env).
    split; [reflexivity|]. split; [exact Hport|].
    split; [intros He; contradiction | reflexivity].
Qed.

Lemma main_listen_address_witness :
  ∃ port, "0.0.0.0:8080" = String.append "0.0.0.0:" port
          ∧ port ≠ ""
          ∧ (PORT {| DATABASE_URL := "postgres://db"; PORT := "" |} = "" → port = "8080")
          ∧ (PORT {| DATABASE_URL := "postgres://db"; PORT := "" |} ≠ "" →
             port = PORT {| DATABASE_URL := "postgres://db"; PORT := "" |}).
Proof.
  apply (main_listen_address {| DATABASE_URL := "postgres://db"; PORT := "" |}
           None None "0.0.0.0:8080").
  reflexivity.
Defined.

(** ** Spellings of an identifier *)

(** Two requests with the same method whose segments parse to the same
    integer are dispatched alike: [/api/test/7], [/api/test/+7] and
    [/api/test/007] name the same record. *)
Theorem same_identifier_same_dispatch (r r' : Request) (seg seg' : string) (id : Z) :
  Method r = Method r' →
  Path r = String.append "/api/test/" seg →
  Path r' = String.append "/api/test/" seg' →
  Strconv.Atoi seg = Some id →
  Strconv.Atoi seg' = Some id →
  apiTestHandler r = apiTestHandler r' ∧ mux r = mux r'.
Proof.
  intros Hm Hp Hp' Ha Ha'.
  destruct (Atoi_plain seg id Ha) as [Hne Hplain].
  destruct (Atoi_plain seg' id Ha') as [Hne' Hplain'].
  rewrite (mux_api_test_segment r seg Hp Hne Hplain).
  rewrite (mux_api_test_segment r' seg' Hp' Hne' Hplain').
  rewrite (apiTestHandler_segment r seg Hp Hne), Ha.
  rewrite (apiTestHandler_segment r' seg' Hp' Hne'), Ha'.
  now rewrite Hm.
Qed.

Lemma same_identifier_same_dispatch_witness :
  apiTestHandler (bodyless "GET" "/api/test/+7")
  = apiTestHandler (bodyless "GET" "/api/test/007").
Proof.
  apply (same_identifier_same_dispatch
           (bodyless "GET" "/api/test/+7") (bodyless "GET" "/api/test/007")
           "+7" "007" 7); reflexivity.
Defined.

Lemma Atoi_not_plain (seg : string) :
  plain seg = false → Strconv.Atoi seg = None.
Proof.
  intros Hnp. destruct (Strconv.Atoi seg) as [id|] eqn:Ha; [|reflexivity].
  destruct (Atoi_plain seg id Ha) as [_ Hp]. congruence.
Qed.

(** Below an identifier nothing is served: when the part after [/api/test/]
    contains a slash or a dot (a nested path, a trailing slash after the
    identifier, a decimal fraction) the router answers 400 for every method
    and invokes no operation. *)
Theorem nested_path_bad_request (r : Request) (seg : string) :
  Path r = String.append "/api/test/" seg →
  plain seg = false →
  apiTestHandler r = HttpError "Invalid ID" StatusBadRequest
  ∧ invokes_controller (apiTestHandler r) = false.
Proof.
  intros Hp Hnp.
  assert (Hne : seg ≠ "") by (intros ->; discriminate Hnp).
  rewrite (apiTestHandler_segment r seg Hp Hne), (Atoi_not_plain seg Hnp).
  now split.
Qed.

Lemma nested_path_bad_request_witness :
  apiTestHandler (bodyless "GET" "/api/test/5/") = HttpError "Invalid ID" StatusBadRequest.
Proof.
  apply (nested_path_bad_request (bodyless "GET" "/api/test/5/") "5/");
    reflexivity.
Defined.
